(** * Gait events and metrics of PfyMU: [src/src/PfyMU/gait/gait.py]

    A shallow embedding of the [Gait] process: the bout segmenter
    ([Gait._get_gait_bouts]), [Gait._predict] up to and including its loop
    over the day windows, and the stages of its loop over the bouts that
    do not depend on SciPy or PyWavelets (wavelet scale selection, stride
    building, per-bout bookkeeping, timing metrics).

    Conventions.
    - numpy integer arrays are [list Z], boolean arrays [list bool];
      indices are [Z], so that Python's negative indices and its
      [IndexError] are written out ([Py.getitem]).
    - In the wavelet scales, the stride builder and the metrics a float64
      is a binary64 float of the kernel ([PrimFloat]): sums, products,
      quotients and comparisons round and compare as NumPy's do.  The bout
      segmenter and the height handling compute with rationals ([Q]); every
      concrete evaluation of them below stays away from rounding
      boundaries.
    - Python exceptions are the [Raise] outcome of [Py.result]; [while]
      loops take fuel and [Diverge] is the outcome of running out of it. *)

From Stdlib Require Import ZArith QArith Floats Sorted Lia.
From stdpp Require Import base list gmap strings.

#[local] Set Warnings "-inexact-float".

Local Open Scope Z_scope.

(** ** Python: exceptions, sequences *)

Module Py.

Inductive exn : Set :=
  IndexError | ValueError | TypeError | KeyError | AttributeError.

Inductive result (A : Type) : Type :=
| Ok (a : A)
| Raise (e : exn)
| Diverge.

Arguments Ok {A} a.
Arguments Raise {A} e.
Arguments Diverge {A}.

Definition bind {A B} (m : result A) (k : A → result B) : result B :=
  match m with
  | Ok a => k a
  | Raise e => Raise e
  | Diverge => Diverge
  end.

(** [len(a)] and [a.size] of a one-dimensional sequence. *)
Definition len {A} (a : list A) : Z := Z.of_nat (length a).

(** [a[i]] on a list or a one-dimensional array: a negative index counts
    from the end, anything outside [-len, len) raises [IndexError]. *)
Definition getitem {A} (a : list A) (i : Z) : result A :=
  let j := if i <? 0 then i + len a else i in
  if (j <? 0) || (len a <=? j) then Raise IndexError
  else match a !! Z.to_nat j with
       | Some x => Ok x
       | None => Raise IndexError
       end.

(** [a[i:j]] for [0 <= i], [0 <= j]: out-of-range bounds are clipped. *)
Definition slice {A} (a : list A) (i j : Z) : list A :=
  take (Z.to_nat j - Z.to_nat i)%nat (drop (Z.to_nat i) a).

(** [range(n)]. *)
Definition range (n : Z) : list Z := map Z.of_nat (seq 0 (Z.to_nat n)).

End Py.

Export Py.

(** Sequencing of statements that may raise. *)
Notation "x <- m ;; k" := (Py.bind m (fun x => k))
  (at level 100, m at next level, right associativity).

(** ** Floats *)

(** Rationals, where a stage is idealised. *)
Definition Qltb (x y : Q) : bool :=
  (Qnum x * Z.pos (Qden y) <? Qnum y * Z.pos (Qden x)).

(** float64. *)
Module F64.

(** An int64 that meets a float64 in an operation: exact below [2^53] in
    magnitude, to the nearest float64 beyond. *)
Definition of_int (z : Z) : float :=
  if z <? 0 then (- of_uint63 (Uint63.of_Z (- z)))%float
  else of_uint63 (Uint63.of_Z z).

(** The float64 that a decimal literal denotes, the nearest one: the
    quotient of two integers below [2^53] is rounded once.  This is how
    the attributes of [Gait], written as decimals, enter float
    arithmetic. *)
Definition of_decimal (q : Q) : float :=
  (of_int (Qnum q) / of_int (Z.pos (Qden q)))%float.

(** The rational that a finite float64 stands for (0 for an infinity or
    nan). *)
Definition to_Q (x : float) : Q :=
  match Prim2SF x with
  | S754_finite s m e =>
      let v := if 0 <=? e then inject_Z (Z.pos m * 2 ^ e)
               else Z.pos m # 2 ^ Z.to_pos (- e) in
      if s then Qopp v else v
  | _ => 0%Q
  end.

(** [a.max()] and [a.min()] of numpy, two entries at a time: a nan wins. *)
Definition maximum (x y : float) : float :=
  if is_nan x then x else if is_nan y then y
  else if (x <? y)%float then y else x.

Definition minimum (x y : float) : float :=
  if is_nan x then x else if is_nan y then y
  else if (y <? x)%float then y else x.


End F64.

(** ** numpy *)

Module Np.

(** [a.astype(int)] on a boolean array. *)
Definition astype_int (a : list bool) : list Z := map Z.b2z a.

(** [diff(a)]: [a[i+1] - a[i]]. *)
Fixpoint diff (a : list Z) : list Z :=
  match a with
  | x :: (y :: _) as t => (y - x) :: diff t
  | _ => []
  end.

(** [a == v], elementwise. *)
Definition eq_mask (a : list Z) (v : Z) : list bool := map (fun x => x =? v) a.

Fixpoint where_from (i : Z) (m : list bool) : list Z :=
  match m with
  | [] => []
  | b :: m' => (if b then [i] else []) ++ where_from (i + 1) m'
  end.

(** [where(m)[0]]: the indices at which the mask holds, ascending. *)
Definition where_ (m : list bool) : list Z := where_from 0 m.

(** [insert(a, 0, v)] and [append(a, v)]. *)
Definition insert0 (a : list Z) (v : Z) : list Z := v :: a.
Definition append (a : list Z) (v : Z) : list Z := a ++ [v].

(** [round(x)] on a float64 ([round] is [numpy.round], line 9): the nearest
    integer, ties to even, as a float64; an infinity or a nan is returned
    as it is.  Below [2^52] in magnitude, adding and subtracting [2^52]
    rounds to the integers; from [2^52] on every float64 is one. *)
Definition round (x : float) : float :=
  let big := 4503599627370496%float in
  (if big <=? abs x then x
   else if 0 <? x then (x + big) - big
   else if x <? 0 then - ((- x + big) - big)
   else x)%float.

End Np.

(** ** The [Gait] object: the attributes set by [__init__] (lines 122-133) *)

Record Gait : Type := {
  use_opt_scale : bool;
  min_bout : Q;
  max_bout_sep : Q;
  max_stride_time : Q;
  loading_factor : Q;
  height_factor : Q;
  leg_length : bool;
  filt_ord : Z;
  filt_cut : Q
}.

(** [Gait()] with the keyword defaults of [__init__] (lines 45-47). *)
Definition Gait_default : Gait := {|
  use_opt_scale := true;
  min_bout := 5;
  max_bout_sep := 0.5;
  max_stride_time := 2.25;
  loading_factor := 0.2;
  height_factor := 0.53;
  leg_length := false;
  filt_ord := 4;
  filt_cut := 20
|}.

(** ** Bout segmenter: [Gait._get_gait_bouts] (lines 414-451) *)

Module Segmenter.

Section Bouts.

Variable self : Gait.
Variable dt : Q.

(** Lines 428-434: rising and falling edges of the label stream, with the
    implicit boundaries at index 0 and [len - 1]. *)
Definition bout_edges (classification : list bool) : result (list Z * list Z) :=
  let starts := Np.where_ (Np.eq_mask (Np.diff (Np.astype_int classification)) 1) in
  let stops := Np.where_ (Np.eq_mask (Np.diff (Np.astype_int classification)) (-1)) in
  c0 <- getitem classification 0 ;;
  let starts := if c0 then Np.insert0 starts 0 else starts in
  cl <- getitem classification (-1) ;;
  let stops := if cl then Np.append stops (len classification - 1) else stops in
  Ok (starts, stops).

(** Lines 442-444: the inner [while]; returns the final [ncb]. *)
Fixpoint merge_loop (fuel : nat) (starts stops : list Z) (nb ncb : Z) : result Z :=
  match fuel with
  | O => Diverge
  | S fuel' =>
      s <- getitem starts (nb + ncb + 1) ;;
      e <- getitem stops (nb + ncb) ;;
      if Qltb (inject_Z (s - e) * dt) (max_bout_sep self)
      then merge_loop fuel' starts stops nb (ncb + 1)
      else Ok ncb
  end.

(** Lines 441-449: the outer [while]. *)
Fixpoint bout_loop (fuel : nat) (starts stops : list Z) (nb : Z)
    (bouts : list (Z * Z)) : result (list (Z * Z)) :=
  match fuel with
  | O => Diverge
  | S fuel' =>
      if nb <? len starts then
        ncb <- merge_loop (S (length starts)) starts stops nb 0 ;;
        e <- getitem stops (nb + ncb) ;;
        s <- getitem starts nb ;;
        bouts' <- (if Qltb (min_bout self) (inject_Z (e - s) * dt)
                  then s' <- getitem starts nb ;;
                       e' <- getitem stops (nb + ncb) ;;
                       Ok (bouts ++ [(s', e')])
                  else Ok bouts) ;;
        bout_loop fuel' starts stops (nb + (ncb + 1)) bouts'
      else Ok bouts
  end.

Definition _get_gait_bouts (classification : list bool) : result (list (Z * Z)) :=
  edges <- bout_edges classification ;;
  let '(starts, stops) := edges in
  if negb (len starts =? len stops) then Raise ValueError
  else bout_loop (S (length starts)) starts stops 0 [].

End Bouts.

(** The label array of the test fixture [get_bgait_samples_truth]
    ([src/test/gait/conftest.py], lines 110-123): 1000 samples, true on
    the listed half-open runs. *)
Definition set_run (a : list bool) (r : Z * Z) : list bool :=
  take (Z.to_nat (fst r)) a
  ++ replicate (Z.to_nat (snd r) - Z.to_nat (fst r))%nat true
  ++ drop (Z.to_nat (snd r)) a.

Definition bouts_ : list (Z * Z) :=
  [(0, 90); (150, 160); (165, 180); (200, 210); (225, 240);
   (400, 760); (770, 780); (990, 1000)].

Definition bgait : list bool := foldl set_run (replicate 1000 false) bouts_.

(** Case 1 of the fixture: [dt = 1/50], [max_bout_separation_time] 0.5 s
    (25 samples), [min_bout_time] 1.5 s (75 samples). *)
Definition case1_dt : Q := 1 # 50.

Definition case1_gait : Gait := {|
  use_opt_scale := true;
  min_bout := 1.5;
  max_bout_sep := 0.5;
  max_stride_time := 2.25;
  loading_factor := 0.2;
  height_factor := 0.53;
  leg_length := false;
  filt_ord := 4;
  filt_cut := 20
|}.

Definition case1_bouts : list (Z * Z) := [(0, 90); (150, 240); (400, 780)].

End Segmenter.

(** ** [Gait._predict]: height and leg length (lines 161-168) *)

Module Height.

(** The Python values that reach the test of line 161. *)
Inductive pyval : Type :=
| PyNone
| PyFloat (x : Q)
| PyStr (s : string).

(** [v is None]. *)
Definition is_none (v : pyval) : bool :=
  match v with
  | PyNone => true
  | _ => false
  end.

(** [a * v] for a float [a]: defined on numbers only. *)
Definition float_mul (a : Q) (v : pyval) : result pyval :=
  match v with
  | PyFloat x => Ok (PyFloat (a * x))
  | _ => Raise TypeError
  end.

(** Lines 161-168.  The test of line 161 is on the string literal
    ['height'], not on the argument.  The result is the list of warnings
    emitted and the local [leg_length], unbound ([None]) on the warning
    branch. *)
Definition height_stage (self : Gait) (height : pyval)
    : result (list string * option pyval) :=
  if is_none (PyStr "height") then
    Ok (["height not provided, not computing spatial metrics"%string], None)
  else if negb (leg_length self) then
    l <- float_mul (height_factor self) height ;;
    Ok ([], Some l)
  else Ok ([], Some height).

End Height.

(** ** [Gait._predict]: wavelet scales (lines 189 and 229-241) *)

Module Scales.

Local Open Scope float_scope.

(** Line 189; [dt] is the float64 of line 171. *)
Definition scale_original (dt : float) : float :=
  Np.round (0.4 / (2 * 1.25 * 1 / dt)) - 1.

(** Line 233, with [peak = argmax(F)] and [n = vert_vel.size]. *)
Definition step_freq (peak n : Z) (dt : float) : float :=
  F64.of_int peak / F64.of_int n / dt.

(** The expression of lines 238 and 239, for either frequency. *)
Definition refined_scale (freq dt : float) : float :=
  Np.round (0.4 / (2 * freq * dt)) - 1.

(** Lines 229-241: [(scale1, scale2)]. *)
Definition scales (self : Gait) (dt : float) (step_freq : float) : float * float :=
  if use_opt_scale self then
    let ic_opt_freq := 0.69 * step_freq + 0.34 in
    let fc_opt_freq := 3.6 * step_freq - 4.5 in
    let scale1 := refined_scale ic_opt_freq dt in
    let scale2 := refined_scale fc_opt_freq dt in
    (scale1, scale2)
  else (scale_original dt, scale_original dt).


End Scales.

(** ** The result table under construction (lines 191-204) *)

Module Table.

(** An entry of a column: numpy integer, boolean or float64 ([nan] is a
    float64). *)
Inductive cell : Type :=
| Int (z : Z)
| Bool (b : bool)
| Float (x : float).

(** What a key of [gait] holds before line 349: a list, or [None]. *)
Inductive value : Type :=
| NoneV
| ListV (l : list cell).

(** What can be handed to [list.extend]. *)
Inductive pyobj : Type :=
| ObjList (l : list cell)
| ObjFloat (x : float).

Definition as_int (c : cell) : result Z :=
  match c with
  | Int z => Ok z
  | Bool b => Ok (Z.b2z b)
  | _ => Raise TypeError
  end.

(** Truth value of an entry, as [if] takes it ([nan] is true). *)
Definition truthy (c : cell) : bool :=
  match c with
  | Int z => negb (z =? 0)
  | Bool b => b
  | Float x => negb (x =? 0)%float
  end.

(** [gait[key]] where the value is used as a list. *)
Definition column (gait : gmap string value) (key : string) : result (list cell) :=
  match gait !! key with
  | None => Raise KeyError
  | Some NoneV => Raise AttributeError
  | Some (ListV l) => Ok l
  end.

(** [gait[key].append(x)]: the list is looked up, then the argument is
    evaluated, then the entry is added. *)
Definition append (gait : gmap string value) (key : string) (x : result cell)
    : result (gmap string value) :=
  l <- column gait key ;;
  x <- x ;;
  Ok (<[key := ListV (l ++ [x])]> gait).

(** [gait[key].extend(o)], in the same order: a float is not iterable. *)
Definition extend (gait : gmap string value) (key : string) (o : result pyobj)
    : result (gmap string value) :=
  l <- column gait key ;;
  o <- o ;;
  match o with
  | ObjList xs => Ok (<[key := ListV (l ++ xs)]> gait)
  | ObjFloat _ => Raise TypeError
  end.

(** Lines 21-36 and 39-43. *)
Definition params : list string :=
  ["stride time"; "stance time"; "swing time"; "step time";
   "initial double support"; "terminal double support"; "double support";
   "single support"; "step length"; "stride length"; "gait speed"; "cadence";
   "step regularity - V"; "stride regularity - V"]%string.

Definition asym_params : list string :=
  ["stride time"; "stance time"; "swing time"; "step time";
   "initial double support"; "terminal double support"; "double support";
   "single support"; "step length"; "stride length"]%string.

(** Lines 191-204. *)
Definition gait_init : gmap string value :=
  let gait : gmap string value :=
    list_to_map
      [("Day N", ListV []);
       ("Bout N", ListV []); ("Bout Start", ListV []);
       ("Bout Duration", ListV []); ("Bout Steps", ListV []);
       ("IC", ListV []); ("FC", ListV []); ("FC opp foot", ListV []);
       ("b valid cycle", ListV []); ("delta h", ListV [])]%string in
  let gait := foldl (fun g p => <["PARAM:" +:+ p := NoneV]> g) gait params in
  let gait :=
    foldl (fun g p => <["PARAM:" +:+ p +:+ " asymmetry" := NoneV]> g)
          gait asym_params in
  let gait := <["PARAM:step regularity - V"%string := ListV []]> gait in
  <["PARAM:stride regularity - V"%string := ListV []]> gait.

End Table.

(** ** Stride builder and per-bout bookkeeping (lines 266-343) *)

Module Strides.
Import Table.

(** [a[mask]] for a boolean mask computed from an array of the same
    length. *)
Fixpoint select {A} (a : list A) (mask : list bool) : list A :=
  match a, mask with
  | x :: a', b :: mask' => if b then x :: select a' mask' else select a' mask'
  | _, _ => []
  end.

(** [mask.sum()], and numpy's [sum] of a list of booleans. *)
Definition count_true (mask : list bool) : Z :=
  foldr (fun b n => Z.b2z b + n) 0 mask.

(** A list comprehension whose element expression may raise. *)
Fixpoint comprehension {A B} (f : A -> result B) (l : list A) : result (list B) :=
  match l with
  | [] => Ok []
  | x :: l' => y <- f x ;; ys <- comprehension f l' ;; Ok (y :: ys)
  end.

(** [a.max()] and [a.min()]: undefined on an empty array. *)
Definition amax (a : list float) : result float :=
  match a with
  | [] => Raise ValueError
  | x :: a' => Ok (foldl F64.maximum x a')
  end.

Definition amin (a : list float) : result float :=
  match a with
  | [] => Raise ValueError
  | x :: a' => Ok (foldl F64.minimum x a')
  end.


Section Bout.

Variable self : Gait.
Variable dt : float.

(** Lines 268-269. *)
Definition loading_forward_time : float :=
  (F64.of_decimal (loading_factor self)
   * F64.of_decimal (max_stride_time self))%float.
Definition stance_forward_time : float :=
  (F64.of_decimal (max_stride_time self) / 2 + loading_forward_time)%float.

(** Lines 272-273: sample times of events, an int64 array times [dt]. *)
Definition times (events : list Z) : list float :=
  map (fun i => (F64.of_int i * dt)%float) events.

(** Lines 277-293: the body of the loop over the initial contacts, for the
    contact of index [ic_i] (its time is [ic_i * dt]). *)
Definition stride_step (fc : list Z) (st : gmap string value * Z) (ic_i : Z)
    : result (gmap string value * Z) :=
  let '(gait, sib) := st in
  let fc_times := times fc in
  let curr_ic := (F64.of_int ic_i * dt)%float in
  let fc_forward := select fc (map (fun t => (curr_ic <? t)%float) fc_times) in
  let fc_forward_times :=
    select fc_times (map (fun t => (curr_ic <? t)%float) fc_times) in
  if negb (count_true
             (map (fun t => (t <? curr_ic + loading_forward_time)%float)
                  fc_forward_times) =? 1)
  then Ok (gait, sib)
  else if count_true
            (map (fun t => (t <? curr_ic + stance_forward_time)%float)
                 fc_forward_times) <? 2
  then Ok (gait, sib)
  else
    gait <- append gait "IC" (Ok (Int ic_i)) ;;
    gait <- append gait "FC" (fc1 <- getitem fc_forward 1 ;; Ok (Int fc1)) ;;
    gait <- append gait "FC opp foot"
              (fc0 <- getitem fc_forward 0 ;; Ok (Int fc0)) ;;
    Ok (gait, sib + 1).

(** Lines 275-293: the loop. *)
Fixpoint stride_loop (fc : list Z) (ic : list Z) (st : gmap string value * Z)
    : result (gmap string value * Z) :=
  match ic with
  | [] => Ok st
  | ic_i :: ic' => st' <- stride_step fc st ic_i ;; stride_loop fc ic' st'
  end.

(** Lines 295-301: the valid-cycle flags of the bout. *)
Definition valid_cycles (gait : gmap string value) (ig sib : Z)
    : result (gmap string value) :=
  gait <- (if 2 <? sib then
             extend gait "b valid cycle"
               (flags <- comprehension
                           (fun i =>
                              IC <- column gait "IC" ;;
                              a <- getitem IC (ig + i + 2) ;;
                              a <- as_int a ;;
                              IC <- column gait "IC" ;;
                              b <- getitem IC (ig + i) ;;
                              b <- as_int b ;;
                              Ok (Bool (F64.of_int (a - b) * dt
                                        <? F64.of_decimal (max_stride_time self))%float))
                           (range (sib - 2)) ;;
                Ok (ObjList flags))
           else Ok gait) ;;
  if 0 <? sib
  then extend gait "b valid cycle"
         (Ok (ObjList (replicate (Z.to_nat sib) (Bool false))))
  else Ok gait.

(** Lines 309-317: the body of the change-in-height loop; [vert_pos] is
    the array of line 306. *)
Definition delta_h_step (vert_pos : list float) (bstart ig : Z)
    (gait : gmap string value) (i : Z) : result (gmap string value) :=
  flags <- column gait "b valid cycle" ;;
  flag <- getitem flags (ig + i) ;;
  if truthy flag then
    IC <- column gait "IC" ;;
    a <- getitem IC (ig + i) ;;
    a <- as_int a ;;
    let i1 := a - bstart in
    IC <- column gait "IC" ;;
    b <- getitem IC (ig + i + 1) ;;
    b <- as_int b ;;
    let i2 := b - bstart in
    append gait "delta h"
      (hi <- amax (slice vert_pos i1 i2) ;;
       lo <- amin (slice vert_pos i1 i2) ;;
       Ok (Float ((hi - lo) * 9.81)%float))
  else append gait "delta h" (Ok (Float nan)).

Fixpoint delta_h_loop (vert_pos : list float) (bstart ig : Z) (idx : list Z)
    (gait : gmap string value) : result (gmap string value) :=
  match idx with
  | [] => Ok gait
  | i :: idx' =>
      gait' <- delta_h_step vert_pos bstart ig gait i ;;
      delta_h_loop vert_pos bstart ig idx' gait'
  end.

(** Lines 268-317 for one bout: [ic] and [fc] are the absolute event
    indices of lines 263-264, [vert_pos] the vertical position that SciPy's
    [cumtrapz] returns at line 306.  The result is the table and [sib]. *)
Definition bout_strides (ic fc : list Z) (vert_pos : list float) (bstart ig : Z)
    (gait : gmap string value) : result (gmap string value * Z) :=
  st <- stride_loop fc ic (gait, 0) ;;
  let '(gait, sib) := st in
  gait <- valid_cycles gait ig sib ;;
  gait <- delta_h_loop vert_pos bstart ig (range (sib - 1)) gait ;;
  Ok (gait, sib).



(** Lines 338-343: per-bout columns; returns the table and the new [ig].
    [bout] is relative to the day's [start]. *)
Definition bout_bookkeeping (time : list float) (start : Z) (ibout : Z)
    (bout : Z * Z) (ig sib : Z) (gait : gmap string value)
    : result (gmap string value * Z) :=
  gait <- extend gait "Bout N"
            (Ok (ObjList (replicate (Z.to_nat sib) (Int (ibout + 1))))) ;;
  gait <- extend gait "Bout Start"
            (t0 <- getitem time (start + fst bout) ;;
             Ok (ObjFloat (t0 * F64.of_int sib)%float)) ;;
  gait <- extend gait "Bout Duration"
            (Ok (ObjList (replicate (Z.to_nat sib)
                            (Float (F64.of_int (snd bout - fst bout) * dt)%float)))) ;;
  gait <- extend gait "Bout Steps"
            (flags <- column gait "b valid cycle" ;;
             Ok (ObjList
                   (replicate (Z.to_nat sib)
                      (Int (count_true (map truthy (drop (Z.to_nat ig) flags))))))) ;;
  Ok (gait, ig + sib).

End Bout.

(** A bout of 100 samples at 50 Hz that starts at sample 0, with three
    initial contacts: each is followed by exactly one final contact within
    the loading time (0.45 s) and by at least two within the stance time
    (1.575 s), so the stride builder accepts all three. *)
Definition ex_dt : float := 0.02.
Definition ex_ic : list Z := [10; 35; 62].
Definition ex_fc : list Z := [15; 41; 68; 95].
Definition ex_vert_pos : list float :=
  map (fun i => F64.of_int (i mod 7 - 3)) (range 100).
Definition ex_time : list float :=
  map (fun i => (F64.of_int i * ex_dt)%float) (range 100).


End Strides.

(** ** Metrics engine: arrays and timing parameters (lines 348-383) *)

Module Metrics.
Import Table.

(** From line 349 on, every key of [gait] refers to a numpy array.  Arrays
    are mutable and indexing may copy, so the arrays live in a store and
    the dictionary holds references into it. *)
Record state : Type := {
  arrays : list (list cell);
  gait : gmap string nat
}.

(** Every reference held by the table points into the store. *)
Definition well_formed (st : state) : Prop :=
  forall (key : string) (r : nat),
    gait st !! key = Some r -> (r < length (arrays st))%nat.

(** A fresh array. *)
Definition alloc (h : list (list cell)) (a : list cell)
    : list (list cell) * nat :=
  (h ++ [a], length h).

Definition read (h : list (list cell)) (r : nat) : list cell :=
  default [] (h !! r).

(** [gait[key]], as a reference and as the entries it refers to. *)
Definition ref (st : state) (key : string) : result nat :=
  match gait st !! key with
  | Some r => Ok r
  | None => Raise KeyError
  end.

Definition entries (st : state) (key : string) : result (list cell) :=
  r <- ref st key ;; Ok (read (arrays st) r).

(** [gait[key] = a] for a freshly built array [a]. *)
Definition bind_key (st : state) (key : string) (a : list cell) : state :=
  let '(h, r) := alloc (arrays st) a in
  {| arrays := h; gait := <[key := r]> (gait st) |}.

(** [array(v)]; [array(None)] is a zero-dimensional array, written here
    as the empty one (lines 353-356 replace it before any use). *)
Definition array (v : value) : list cell :=
  match v with
  | ListV l => l
  | NoneV => []
  end.

(** Lines 349-350. *)
Definition to_arrays (table : gmap string value) : state :=
  map_fold (fun key v st => bind_key st key (array v))
           {| arrays := []; gait := ∅ |} table.

(** [full(n, nan)]. *)
Definition full_nan (n : Z) : list cell := replicate (Z.to_nat n) (Float nan).

(** Lines 353-356. *)
Definition alloc_params (st : state) : result state :=
  st <- foldl (fun acc p =>
                 st <- acc ;;
                 IC <- entries st "IC" ;;
                 Ok (bind_key st ("PARAM:" +:+ p) (full_nan (len IC))))
              (Ok st) params ;;
  foldl (fun acc p =>
           st <- acc ;;
           IC <- entries st "IC" ;;
           Ok (bind_key st ("PARAM:" +:+ p +:+ " asymmetry") (full_nan (len IC))))
        (Ok st) asym_params.

(** An elementwise binary operation with numpy's broadcasting of
    one-dimensional operands. *)
Definition broadcast2 {A B C} (f : A -> B -> C) (a : list A) (b : list B)
    : result (list C) :=
  if (length a =? length b)%nat then Ok (zip_with f a b)
  else match a, b with
       | [x], _ => Ok (map (f x) b)
       | _, [y] => Ok (map (fun x => f x y) a)
       | _, _ => Raise ValueError
       end.

(** [a[mask]] for a boolean mask: a copy of the selected entries. *)
Definition getitem_mask {A} (a : list A) (mask : list bool) : result (list A) :=
  if (length a =? length mask)%nat then Ok (Strides.select a mask)
  else Raise IndexError.

(** [a[:-k]] and [a[k:]] for [k > 0]. *)
Definition but_last {A} (k : nat) (a : list A) : list A := take (length a - k) a.
Definition from {A} (k : nat) (a : list A) : list A := drop k a.

(** [a[:-k] = v] on the array at [r] (with [k = 0] for [a[:] = v]). *)
Definition setitem_but_last (h : list (list cell)) (r : nat) (k : nat)
    (v : list cell) : result (list (list cell)) :=
  let a := read h r in
  let n := (length a - k)%nat in
  if (length v =? n)%nat then Ok (<[r := v ++ drop n a]> h)
  else match v with
       | [x] => Ok (<[r := replicate n x ++ drop n a]> h)
       | _ => Raise ValueError
       end.

(** The target [gait[key][mask][:-k] = v]: [gait[key][mask]] is evaluated
    first and, the index being a boolean array, is a new array; the slice
    assignment then stores into that new array. *)
Definition assign_masked (st : state) (key : string) (mask : list bool)
    (k : nat) (v : list cell) : result state :=
  r <- ref st key ;;
  c <- getitem_mask (read (arrays st) r) mask ;;
  let '(h, rc) := alloc (arrays st) c in
  h <- setitem_but_last h rc k v ;;
  Ok {| arrays := h; gait := gait st |}.

(** The target [gait[key][:] = v] (lines 383-391): the slice assignment
    stores into the array the key refers to. *)
Definition assign_all (st : state) (key : string) (v : list cell) : result state :=
  r <- ref st key ;;
  h <- setitem_but_last (arrays st) r 0 v ;;
  Ok {| arrays := h; gait := gait st |}.

Definition ints (a : list cell) : result (list Z) :=
  Strides.comprehension as_int a.

(** [unique(a)]: the distinct values, ascending. *)
Fixpoint insert_unique (x : Z) (l : list Z) : list Z :=
  match l with
  | [] => [x]
  | y :: l' => if x <? y then x :: l
               else if x =? y then l
               else y :: insert_unique x l'
  end.

Definition unique (a : list Z) : list Z := foldr insert_unique [] a.

Section Timing.

Variable dt : float.

(** [(a - b) * dt] on integer arrays. *)
Definition diff_times (a b : list Z) : result (list cell) :=
  d <- broadcast2 Z.sub a b ;;
  Ok (map (fun z => Float (F64.of_int z * dt)%float) d).

(** [gait[key][mask]] read as integers. *)
Definition masked (st : state) (key : string) (mask : list bool)
    : result (list Z) :=
  a <- entries st key ;;
  a <- getitem_mask a mask ;;
  ints a.

(** Lines 368-369. *)
Definition assign_stride_time (st : state) (mask : list bool) : result state :=
  a <- masked st "IC" mask ;;
  b <- masked st "IC" mask ;;
  v <- diff_times (from 2 a) (but_last 2 b) ;;
  assign_masked st "PARAM:stride time" mask 2 v.

(** Lines 370-371. *)
Definition assign_swing_time (st : state) (mask : list bool) : result state :=
  a <- masked st "IC" mask ;;
  b <- entries st "FC" ;;
  b <- ints b ;;
  v <- diff_times (from 2 a) (but_last 2 b) ;;
  assign_masked st "Param:swing time" mask 2 v.

(** Lines 372-373. *)
Definition assign_step_time (st : state) (mask : list bool) : result state :=
  a <- masked st "IC" mask ;;
  b <- masked st "IC" mask ;;
  v <- diff_times (from 1 a) (but_last 1 b) ;;
  assign_masked st "PARAM:step time" mask 1 v.

(** Lines 374-375. *)
Definition assign_terminal_double_support (st : state) (mask : list bool)
    : result state :=
  a <- masked st "FC opp foot" mask ;;
  b <- masked st "IC" mask ;;
  v <- diff_times (from 1 a) (from 1 b) ;;
  assign_masked st "PARAM:terminal double support" mask 1 v.

(** Lines 376-377. *)
Definition assign_single_support (st : state) (mask : list bool) : result state :=
  a <- masked st "IC" mask ;;
  b <- masked st "FC opp foot" mask ;;
  v <- diff_times (from 1 a) (but_last 1 b) ;;
  assign_masked st "PARAM:single support" mask 1 v.

(** Lines 368-377: the timing parameters of one (day, bout) group. *)
Definition timing_group (st : state) (mask : list bool) : result state :=
  st <- assign_stride_time st mask ;;
  st <- assign_swing_time st mask ;;
  st <- assign_step_time st mask ;;
  st <- assign_terminal_double_support st mask ;;
  assign_single_support st mask.

(** Lines 364-366: the groups, by day and by bout within the day. *)
Definition group_mask (st : state) (day bout : Z) : result (list bool) :=
  days <- entries st "Day N" ;;
  days <- ints days ;;
  bouts <- entries st "Bout N" ;;
  bouts <- ints bouts ;;
  broadcast2 andb (Np.eq_mask days day) (Np.eq_mask bouts bout).

Definition bouts_of_day (st : state) (day : Z) : result (list Z) :=
  bouts <- entries st "Bout N" ;;
  bouts <- ints bouts ;;
  days <- entries st "Day N" ;;
  days <- ints days ;;
  sel <- getitem_mask bouts (Np.eq_mask days day) ;;
  Ok (unique sel).

Fixpoint timing_bouts (st : state) (day : Z) (bouts : list Z) : result state :=
  match bouts with
  | [] => Ok st
  | bout :: bouts' =>
      mask <- group_mask st day bout ;;
      st <- timing_group st mask ;;
      timing_bouts st day bouts'
  end.

Fixpoint timing_days (st : state) (days : list Z) : result state :=
  match days with
  | [] => Ok st
  | day :: days' =>
      bouts <- bouts_of_day st day ;;
      st <- timing_bouts st day bouts ;;
      timing_days st days'
  end.

Definition timing (st : state) : result state :=
  days <- entries st "Day N" ;;
  days <- ints days ;;
  timing_days st (unique days).

(** Line 383. *)
Definition assign_stance_time (st : state) : result state :=
  a <- entries st "FC" ;;
  a <- ints a ;;
  b <- entries st "IC" ;;
  b <- ints b ;;
  v <- diff_times a b ;;
  assign_all st "PARAM:stance time" v.

End Timing.

(** A table as the stride builder is meant to leave it for one day with
    one bout of three strides. *)
Definition one_bout_table : gmap string value :=
  let ints := fun l => ListV (map Int l) in
  <["IC"%string := ints [10; 35; 62]]>
  (<["FC"%string := ints [41; 68; 95]]>
  (<["FC opp foot"%string := ints [15; 41; 68]]>
  (<["b valid cycle"%string := ListV [Bool true; Bool false; Bool false]]>
  (<["delta h"%string := ListV [Float 0.05; Float nan; Float nan]]>
  (<["Bout N"%string := ints [1; 1; 1]]>
  (<["Bout Start"%string := ListV [Float 3; Float 3; Float 3]]>
  (<["Bout Duration"%string := ListV [Float 2; Float 2; Float 2]]>
  (<["Bout Steps"%string := ints [1; 1; 1]]>
  (<["Day N"%string := ints [1; 1; 1]]> gait_init))))))))).

End Metrics.

(** ** [Gait._predict] as a whole (lines 135-407) *)

Module Predict.
Import Table.


Section Run.

Variable self : Gait.

(** What [_predict] calls outside this file: [super()._predict] of
    [PfyMU.base], with its outcome, and [get_lgb_gait_classification] of
    [PfyMU.gait.bout_detection], with the labels it returns. *)
Variable base : result unit.
Variable classification : result (list bool).

(** [accel.shape[0]]. *)
Variable n : Z.

(** The body of the loop over the bouts of a day (lines 216-343), for the
    day's [start], the number [ibout] of the bout, the bout, the table and
    [ig]. *)
Variable R : Type.
Variable bout_body :
  Z -> Z -> Z * Z -> gmap string value * Z -> result (gmap string value * Z).

(** Lines 349-404: the metrics, from the table that the loops leave. *)
Variable metrics : gmap string value -> result R.





End Run.


End Predict.

(** * Theorems *)

(** Case analysis on a statement that may raise: only its normal outcome
    lets the statements after it run. *)
Ltac on_ok :=
  match goal with
  | |- context [Py.bind ?m _] => destruct m; cbn [Py.bind]; try discriminate
  end.

(** ** Sequences *)

Lemma getitem_inside {A} (a : list A) (i : Z) :
  0 <= i < len a -> exists x, getitem a i = Ok x.
Proof.
  intros Hi. unfold getitem.
  destruct (Z.ltb_spec i 0) as [?|_]; [lia|].
  destruct (Z.ltb_spec i 0) as [?|_]; [lia|].
  destruct (Z.leb_spec (len a) i) as [?|_]; [lia|]. cbn.
  destruct (a !! Z.to_nat i) as [x|] eqn:E; [eauto|].
  apply lookup_ge_None in E. unfold len in Hi. lia.
Qed.


Lemma getitem_beyond {A} (a : list A) (i : Z) :
  len a <= i -> getitem a i = Raise IndexError.
Proof.
  intros Hi. unfold getitem. pose proof (Nat2Z.is_nonneg (length a)) as Hl.
  unfold len in *.
  destruct (Z.ltb_spec i 0) as [?|_]; [lia|].
  destruct (Z.ltb_spec i 0) as [?|_]; [lia|].
  destruct (Z.leb_spec (Z.of_nat (length a)) i) as [_|?]; [reflexivity|lia].
Qed.

Lemma last_cons {A} (c : list A) :
  forall a b : A, List.last (b :: c) a = List.last c b.
Proof.
  induction c as [|x c IH]; intros a b; [reflexivity|].
  change (List.last (b :: x :: c) a) with (List.last (x :: c) a).
  rewrite (IH a x), (IH b x). reflexivity.
Qed.

(** ** Bout segmenter *)

Module SegmenterFacts.
Import Segmenter.

Section Loops.

Variable self : Gait.
Variable dt : Q.
Variables starts stops : list Z.
Hypothesis Hsize : len starts = len stops.

(** The inner loop either runs off the end of [starts] or stops at a
    pair that still has a successor. *)
Lemma merge_loop_outcome (nb : Z) (Hnb : 0 <= nb) :
  forall (fuel : nat) (ncb : Z),
    0 <= ncb -> nb + ncb < len starts ->
    len starts - (nb + ncb) <= Z.of_nat fuel ->
    merge_loop self dt fuel starts stops nb ncb = Raise IndexError
    \/ exists ncb', merge_loop self dt fuel starts stops nb ncb = Ok ncb'
                    /\ ncb <= ncb' /\ nb + ncb' + 1 < len starts.
Proof.
  induction fuel as [|fuel IH]; intros ncb Hncb Hlt Hfuel; [lia|].
  cbn [merge_loop].
  destruct (Z_lt_le_dec (nb + ncb + 1) (len starts)) as [Hin|Hout].
  - destruct (getitem_inside starts (nb + ncb + 1)) as [s ->]; [lia|].
    destruct (getitem_inside stops (nb + ncb)) as [e ->]; [lia|].
    cbn [Py.bind].
    destruct (Qltb _ _).
    + destruct (IH (ncb + 1) ltac:(lia) ltac:(lia) ltac:(lia))
        as [HR | (ncb' & HO & ? & ?)].
      * left; exact HR.
      * right; exists ncb'; repeat split; [exact HO|lia|lia].
    + right; exists ncb; repeat split; [lia|exact Hin].
  - rewrite getitem_beyond by lia. left; reflexivity.
Qed.

(** Whenever there is a bout start left to process, the outer loop ends
    in the [IndexError] of [starts[nb+ncb+1]] (line 443). *)
Lemma bout_loop_index_error :
  forall (fuel : nat) (nb : Z) (bouts : list (Z * Z)),
    0 <= nb < len starts ->
    len starts - nb < Z.of_nat fuel ->
    bout_loop self dt fuel starts stops nb bouts = Raise IndexError.
Proof.
  induction fuel as [|fuel IH]; intros nb bouts Hnb Hfuel; [lia|].
  cbn [bout_loop].
  destruct (Z.ltb_spec nb (len starts)) as [_|?]; [|lia].
  destruct (merge_loop_outcome nb (proj1 Hnb) (S (length starts)) 0)
    as [-> | (ncb & -> & Hge & Hlt)]; try (unfold len in *; lia);
    [reflexivity|].
  cbn [Py.bind].
  destruct (getitem_inside stops (nb + ncb)) as [e He]; [lia|].
  destruct (getitem_inside starts nb) as [s Hs]; [lia|].
  rewrite He, Hs. cbn [Py.bind].
  destruct (Qltb _ _); cbn [Py.bind]; apply IH; lia.
Qed.

End Loops.

(** The number of rising edges, plus one if the stream starts inside a
    bout, is the number of falling edges, plus one if it ends inside. *)
Lemma edge_count (c : list bool) :
  forall (a : bool) (i j : Z),
    Z.b2z a + len (Np.where_from i (Np.eq_mask (Np.diff (Np.astype_int (a :: c))) 1))
    = len (Np.where_from j (Np.eq_mask (Np.diff (Np.astype_int (a :: c))) (-1)))
      + Z.b2z (List.last c a).
Proof.
  induction c as [|b c IH]; intros a i j; [cbn; lia|].
  specialize (IH b (i + 1) (j + 1)).
  change (Np.diff (Np.astype_int (a :: b :: c)))
    with ((Z.b2z b - Z.b2z a) :: Np.diff (Np.astype_int (b :: c))).
  cbn [Np.eq_mask map Np.where_from].
  fold (Np.eq_mask (Np.diff (Np.astype_int (b :: c))) 1).
  fold (Np.eq_mask (Np.diff (Np.astype_int (b :: c))) (-1)).
  unfold len in *. rewrite !length_app, !Nat2Z.inj_add.
  rewrite last_cons.
  set (R := Np.where_from (i + 1) _) in *.
  set (F := Np.where_from (j + 1) _) in *.
  set (z := List.last c b) in *. clearbody R F z.
  destruct a, b; unfold Z.b2z in *;
    repeat match goal with
           | |- context [?x - ?y =? ?v] =>
               let r := eval vm_compute in (x - y =? v) in
               change (x - y =? v) with r
           end;
    cbn [length]; lia.
Qed.

Lemma getitem_head {A} (a : A) (c : list A) : getitem (a :: c) 0 = Ok a.
Proof.
  unfold getitem, len. cbn [length].
  destruct (Z.leb_spec (Z.of_nat (S (length c))) 0); [lia|reflexivity].
Qed.

Lemma lookup_last {A} (c : list A) :
  forall a : A, (a :: c) !! length c = Some (List.last c a).
Proof.
  induction c as [|b c IH]; intros a; [reflexivity|].
  rewrite last_cons. cbn [length]. rewrite <- (IH b). reflexivity.
Qed.

Lemma getitem_last {A} (a : A) (c : list A) :
  getitem (a :: c) (-1) = Ok (List.last c a).
Proof.
  unfold getitem.
  replace (if -1 <? 0 then -1 + len (a :: c) else -1) with (Z.of_nat (length c))
    by (change (-1 <? 0) with true; unfold len; cbn [length]; lia).
  unfold len. cbn [length].
  destruct (Z.ltb_spec (Z.of_nat (length c)) 0); [lia|].
  destruct (Z.leb_spec (Z.of_nat (S (length c))) (Z.of_nat (length c))); [lia|].
  cbn [orb]. rewrite Nat2Z.id, lookup_last. reflexivity.
Qed.

Lemma bout_edges_cons (a : bool) (c : list bool) :
  bout_edges (a :: c) =
  Ok (let starts := Np.where_ (Np.eq_mask (Np.diff (Np.astype_int (a :: c))) 1) in
      if a then Np.insert0 starts 0 else starts,
      let stops := Np.where_ (Np.eq_mask (Np.diff (Np.astype_int (a :: c))) (-1)) in
      if List.last c a then Np.append stops (len (a :: c) - 1) else stops).
Proof.
  unfold bout_edges. rewrite getitem_head, getitem_last. reflexivity.
Qed.

Lemma bout_edges_balanced (c : list bool) (starts stops : list Z) :
  bout_edges c = Ok (starts, stops) -> len starts = len stops.
Proof.
  destruct c as [|a c]; [discriminate|].
  rewrite bout_edges_cons.
  pose proof (edge_count c a 0 0) as H. revert H. unfold Np.where_.
  set (R := Np.where_from 0 _). set (F := Np.where_from 0 _).
  set (z := List.last c a). set (n := len (a :: c) - 1).
  clearbody R F z n. cbv zeta. intros H [= <- <-].
  unfold Np.insert0, Np.append, len in *.
  destruct a, z; unfold Z.b2z in H;
    rewrite ?length_app; cbn [length]; lia.
Qed.

(** What the segmenter does on every input: an empty array fails at
    [classification[0]], an array without any bout start gives no bout,
    and every other array ends in the [IndexError] of line 443. *)
Lemma get_gait_bouts_outcome (self : Gait) (dt : Q) (c : list bool) :
  _get_gait_bouts self dt c =
  match bout_edges c with
  | Ok ([], _) => Ok []
  | Ok (_ :: _, _) => Raise IndexError
  | Raise e => Raise e
  | Diverge => Diverge
  end.
Proof.
  unfold _get_gait_bouts.
  destruct (bout_edges c) as [[starts stops]|e|] eqn:E; cbn [Py.bind]; try reflexivity.
  apply bout_edges_balanced in E.
  rewrite E, Z.eqb_refl. cbn [negb].
  destruct starts as [|s starts]; [reflexivity|].
  apply bout_loop_index_error; [exact E| |]; unfold len; cbn [length]; lia.
Qed.

(** A constant label stream has no edge. *)
Lemma edges_constant (b : bool) (v : Z) (Hv : v <> 0) (n : nat) :
  forall i : Z,
    Np.where_from i
      (Np.eq_mask (Np.diff (Np.astype_int (replicate (S n) b))) v) = [].
Proof.
  induction n as [|n IH]; intros i; [reflexivity|].
  change (Np.diff (Np.astype_int (replicate (S (S n)) b)))
    with ((Z.b2z b - Z.b2z b) :: Np.diff (Np.astype_int (replicate (S n) b))).
  cbn [Np.eq_mask map Np.where_from].
  fold (Np.eq_mask (Np.diff (Np.astype_int (replicate (S n) b))) v).
  rewrite IH, Z.sub_diag.
  destruct (Z.eqb_spec 0 v); [congruence|reflexivity].
Qed.

Lemma last_constant (b : bool) (n : nat) : List.last (replicate n b) b = b.
Proof.
  induction n as [|n IH]; [reflexivity|].
  change (replicate (S n) b) with (b :: replicate n b).
  rewrite last_cons. exact IH.
Qed.

(** Without any gait sample there is no bout: the one case in which the
    segmenter returns. *)
Lemma get_gait_bouts_all_false (self : Gait) (dt : Q) (n : nat) :
  _get_gait_bouts self dt (replicate (S n) false) = Ok [].
Proof.
  assert (E : bout_edges (replicate (S n) false) = Ok ([], [])).
  { change (replicate (S n) false) with (false :: replicate n false).
    rewrite bout_edges_cons.
    change (false :: replicate n false) with (replicate (S n) false).
    rewrite last_constant. unfold Np.where_.
    rewrite !edges_constant by discriminate. reflexivity. }
  rewrite get_gait_bouts_outcome, E. reflexivity.
Qed.

Example get_gait_bouts_single_run :
  bout_edges [false; true; true; false; false] = Ok ([0], [2])
  /\ _get_gait_bouts Gait_default (1 # 50) [false; true; true; false; false]
     = Raise IndexError.
Proof. split; reflexivity. Qed.

Lemma get_gait_bouts_terminates (self : Gait) (dt : Q) (c : list bool) :
  _get_gait_bouts self dt c <> Diverge.
Proof.
  rewrite get_gait_bouts_outcome. destruct c as [|a c]; [discriminate|].
  rewrite bout_edges_cons. destruct (if a then _ else _); discriminate.
Qed.

End SegmenterFacts.



(** ** Floats *)

Module F64Facts.






(** The decimals of the default attributes denote the float64 that Python
    reads them as, and a float64 stands for the rational it is. *)
Example of_decimal_literals :
  map F64.of_decimal [2.25; 0.2; 0.53; 0.5; 5.0; 20.0]%Q
  = [2.25; 0.2; 0.53; 0.5; 5; 20]%float.
Proof. vm_compute; reflexivity. Qed.

Example to_Q_exact :
  map (fun x => Qred (F64.to_Q x)) [0.75; 2.25; -1.5; 0; 4503599627370496]%float
  = [3 # 4; 9 # 4; - (3 # 2); 0; 4503599627370496]%Q.
Proof. vm_compute; reflexivity. Qed.


End F64Facts.

(** ** Stride builder *)

Module StridesFacts.
Import Table Strides.





Lemma count_true_cons (b : bool) (l : list bool) :
  count_true (b :: l) = Z.b2z b + count_true l.
Proof. reflexivity. Qed.

Lemma count_true_nonneg (l : list bool) : 0 <= count_true l.
Proof.
  induction l as [|b l IH]; [reflexivity|].
  rewrite count_true_cons. destruct b; unfold Z.b2z; lia.
Qed.


Section Bout.

Variable self : Gait.
Variable dt : float.





End Bout.

(** *** The flag and change-in-height columns *)

Lemma append_inv (gait gait' : gmap string value) (key : string) (x : result cell) :
  append gait key x = Ok gait' ->
  exists l c, column gait key = Ok l /\ gait' = <[key := ListV (l ++ [c])]> gait.
Proof.
  unfold append. intros H.
  destruct (column gait key) as [l| |]; cbn [Py.bind] in H; try discriminate.
  destruct x as [c| |]; cbn [Py.bind] in H; try discriminate.
  injection H as <-. eauto.
Qed.

Lemma extend_inv (gait gait' : gmap string value) (key : string)
    (o : result pyobj) :
  extend gait key o = Ok gait' ->
  exists l xs, column gait key = Ok l /\ o = Ok (ObjList xs)
               /\ gait' = <[key := ListV (l ++ xs)]> gait.
Proof.
  unfold extend. intros H.
  destruct (column gait key) as [l| |]; cbn [Py.bind] in H; try discriminate.
  destruct o as [[xs|x]| |]; cbn [Py.bind] in H; try discriminate.
  injection H as <-. eauto.
Qed.

Lemma column_insert (gait : gmap string value) (key : string) (l : list cell) :
  column (<[key := ListV l]> gait) key = Ok l.
Proof. unfold column. rewrite lookup_insert_eq. reflexivity. Qed.

Lemma comprehension_length {A B} (f : A -> result B) (l : list A) :
  forall ys, comprehension f l = Ok ys -> length ys = length l.
Proof.
  induction l as [|x l IH]; intros ys; cbn [comprehension].
  - intros [= <-]. reflexivity.
  - destruct (f x); cbn [Py.bind]; try discriminate.
    destruct (comprehension f l) as [ys'| |]; cbn [Py.bind]; try discriminate.
    intros [= <-]. cbn [length]. rewrite (IH ys' eq_refl). reflexivity.
Qed.

Lemma length_range (n : Z) : length (range n) = Z.to_nat n.
Proof. unfold range. rewrite length_map, length_seq. reflexivity. Qed.

(** Lines 295-301 give a bout of [sib > 2] accepted strides
    [(sib - 2) + sib] flags, and a bout of one or two strides [sib]. *)
Lemma valid_cycles_growth (self : Gait) (dt : float) (gait gait' : gmap string value)
    (ig sib : Z) (flags : list cell) :
  column gait "b valid cycle" = Ok flags ->
  valid_cycles self dt gait ig sib = Ok gait' ->
  exists new : list cell,
    column gait' "b valid cycle" = Ok (flags ++ new)
    /\ len new = (if 2 <? sib then 2 * sib - 2 else Z.max sib 0).
Proof.
  intros Hf. unfold valid_cycles.
  destruct (Z.ltb_spec 2 sib) as [H2|H2].
  - destruct (extend gait "b valid cycle" _) as [g1| |] eqn:E1;
      cbn [Py.bind]; try discriminate.
    apply extend_inv in E1. destruct E1 as (l & xs & Hl & Hxs & ->).
    rewrite Hf in Hl. injection Hl as <-.
    destruct (comprehension _ _) as [ys| |] eqn:Ec;
      cbn [Py.bind] in Hxs; try discriminate.
    injection Hxs as <-. apply comprehension_length in Ec.
    rewrite length_range in Ec.
    destruct (Z.ltb_spec 0 sib); [|lia].
    intros E2. apply extend_inv in E2. destruct E2 as (l & xs & Hl & Hxs & ->).
    rewrite column_insert in Hl. injection Hl as <-. injection Hxs as <-.
    eexists. rewrite column_insert, <- app_assoc. split; [reflexivity|].
    unfold len. rewrite length_app, length_replicate, Ec. lia.
  - cbn [Py.bind]. destruct (Z.ltb_spec 0 sib).
    + intros E2. apply extend_inv in E2. destruct E2 as (l & xs & Hl & Hxs & ->).
      rewrite Hf in Hl. injection Hl as <-. injection Hxs as <-.
      eexists. rewrite column_insert. split; [reflexivity|].
      unfold len. rewrite length_replicate. lia.
    + intros [= <-]. exists []. rewrite app_nil_r. split; [exact Hf|].
      unfold len. cbn [length]. lia.
Qed.

(** Lines 309-317 append one change in height per index of the loop:
    [sib - 1] of them for a bout of [sib] strides. *)
Lemma delta_h_loop_growth (vert_pos : list float) (bstart ig : Z) (idx : list Z) :
  forall (gait gait' : gmap string value) (dh : list cell),
    column gait "delta h" = Ok dh ->
    delta_h_loop vert_pos bstart ig idx gait = Ok gait' ->
    exists new : list cell,
      column gait' "delta h" = Ok (dh ++ new) /\ length new = length idx.
Proof.
  induction idx as [|i idx IH]; intros gait gait' dh Hd; cbn [delta_h_loop].
  - intros [= <-]. exists []. rewrite app_nil_r. auto.
  - destruct (delta_h_step vert_pos bstart ig gait i) as [g1| |] eqn:E1;
      cbn [Py.bind]; try discriminate.
    assert (H1 : exists c, column g1 "delta h" = Ok (dh ++ [c])).
    { assert (Ha : exists x, append gait "delta h" x = Ok g1).
      { revert E1. unfold delta_h_step.
        do 2 on_ok. destruct (truthy _); [|eauto].
        do 5 on_ok. eauto. }
      destruct Ha as (x & Ha). apply append_inv in Ha.
      destruct Ha as (l & c & Hl & ->).
      rewrite Hd in Hl. injection Hl as <-.
      exists c. apply column_insert. }
    destruct H1 as (c & H1). intros E2.
    destruct (IH g1 gait' _ H1 E2) as (new & Hn & Hlen).
    exists (c :: new). rewrite <- app_assoc in Hn. split; [exact Hn|].
    cbn [length]. lia.
Qed.

(** A bout of three accepted strides, were the loop over the bouts ever
    to run: the event columns get three rows each, the valid-cycle column
    four (one flag for the first stride, then [sib] rather than two
    [False]), the change-in-height column two; the bookkeeping that
    follows raises [TypeError] at line 339, where a float is handed to
    [list.extend]. *)
Example three_strides_unequal_columns :
  (r <- bout_strides Gait_default ex_dt ex_ic ex_fc ex_vert_pos 0 0 gait_init ;;
   IC <- column (fst r) "IC" ;;
   FC <- column (fst r) "FC" ;;
   OPP <- column (fst r) "FC opp foot" ;;
   flags <- column (fst r) "b valid cycle" ;;
   dh <- column (fst r) "delta h" ;;
   Ok (snd r, IC, FC, OPP, flags, len dh))
  = Ok (3, [Int 10; Int 35; Int 62], [Int 41; Int 68; Int 95],
        [Int 15; Int 41; Int 68],
        [Bool true; Bool false; Bool false; Bool false], 2)
  /\ (r <- bout_strides Gait_default ex_dt ex_ic ex_fc ex_vert_pos 0 0 gait_init ;;
      bout_bookkeeping ex_dt ex_time 0 0 (0, 100) 0 (snd r) (fst r))
     = Raise TypeError.
Proof.
  split; vm_compute; reflexivity.
Qed.

(** The bounds are compared in float64: at 100 Hz the final contact at
    sample 58 is 0.45 s, the whole loading time, after the initial contact
    at sample 13, and counts as within it, [58 * dt] being
    0.57999999999999996 and [13 * dt + loading_forward_time]
    0.58000000000000007. *)
Example loading_bound_in_float64 :
  (r <- stride_loop Gait_default 0.01 [58; 61] [13] (gait_init, 0) ;;
   IC <- column (fst r) "IC" ;;
   FC <- column (fst r) "FC" ;;
   OPP <- column (fst r) "FC opp foot" ;;
   Ok (snd r, IC, FC, OPP))
  = Ok (1, [Int 13], [Int 61], [Int 58])
  /\ (F64.of_int 58 * 0.01 <? F64.of_int 13 * 0.01
                              + loading_forward_time Gait_default)%float = true.
Proof.
  split; vm_compute; reflexivity.
Qed.

(** A bout of a single accepted stride gets one flag and no change in
    height. *)
Example one_stride_no_delta_h :
  (r <- bout_strides Gait_default ex_dt [10] ex_fc ex_vert_pos 0 0 gait_init ;;
   IC <- column (fst r) "IC" ;;
   flags <- column (fst r) "b valid cycle" ;;
   dh <- column (fst r) "delta h" ;;
   Ok (snd r, IC, flags, dh)) = Ok (1, [Int 10], [Bool false], []).
Proof.
  vm_compute; reflexivity.
Qed.

End StridesFacts.

(** ** Wavelet scales *)

Module ScalesFacts.
Import Scales.

Example round_half_even :
  map Np.round [0.5; 1.5; 2.5; -1.5; 0.4; 0.6; 5.81; 32.50000000000002;
                infinity]%float
  = [0; 2; 2; -2; 0; 1; 6; 33; infinity]%float.
Proof. vm_compute; reflexivity. Qed.


(** A step frequency of 1.25 Hz makes [fc_opt_freq] zero and the second
    refined scale infinite. *)
Example scales_at_1_25_Hz :
  scales Gait_default 0.02 1.25 = (7, infinity)%float.
Proof. vm_compute; reflexivity. Qed.

End ScalesFacts.

(** ** Metrics engine *)

Module MetricsFacts.
Import Table Metrics.

(** An assignment through [gait[key][mask][:-k]] leaves every array that
    existed before it as it was. *)
Lemma assign_masked_keeps_arrays (st st' : state) (key : string)
    (mask : list bool) (k : nat) (v : list cell) :
  assign_masked st key mask k v = Ok st' ->
  gait st' = gait st
  /\ forall r, (r < length (arrays st))%nat ->
               read (arrays st') r = read (arrays st) r.
Proof.
  unfold assign_masked.
  destruct (ref st key) as [r0| |]; cbn [Py.bind]; try discriminate.
  destruct (getitem_mask _ mask) as [c| |]; cbn [Py.bind]; try discriminate.
  unfold alloc, setitem_but_last.
  set (n := (length (read (arrays st ++ [c]) (length (arrays st))) - k)%nat).
  assert (Hkeep : forall a r, (r < length (arrays st))%nat ->
            read (<[length (arrays st) := a]> (arrays st ++ [c])) r
            = read (arrays st) r).
  { intros a r Hr. unfold read.
    rewrite list_lookup_insert_ne by lia.
    rewrite lookup_app_l by exact Hr. reflexivity. }
  destruct (length v =? n)%nat.
  - cbn [Py.bind]. intros [= <-]. cbn [gait arrays]. split; [reflexivity|].
    apply Hkeep.
  - destruct v as [|x [|? ?]]; cbn [Py.bind]; try discriminate.
    intros [= <-]. cbn [gait arrays]. split; [reflexivity|]. apply Hkeep.
Qed.

(** So no column of the table changes. *)
Lemma assign_masked_keeps_entries (st st' : state) (key : string)
    (mask : list bool) (k : nat) (v : list cell) :
  well_formed st ->
  assign_masked st key mask k v = Ok st' ->
  forall key', entries st' key' = entries st key'.
Proof.
  intros Hwf H key'.
  destruct (assign_masked_keeps_arrays _ _ _ _ _ _ H) as [Hg Ha].
  unfold entries, ref. rewrite Hg.
  destruct (gait st !! key') as [r|] eqn:E; cbn [Py.bind]; [|reflexivity].
  rewrite (Ha r (Hwf key' r E)). reflexivity.
Qed.

(** An assignment through [gait[key][:]] of as many entries as the column
    has is what the column holds afterwards. *)
Lemma assign_all_persists (st : state) (key : string) (r : nat) (v : list cell) :
  gait st !! key = Some r ->
  (r < length (arrays st))%nat ->
  length v = length (read (arrays st) r) ->
  exists st', assign_all st key v = Ok st' /\ entries st' key = Ok v.
Proof.
  intros Hr Hlt Hlen. unfold assign_all, ref. rewrite Hr. cbn [Py.bind].
  unfold setitem_but_last. rewrite Nat.sub_0_r, Hlen, Nat.eqb_refl.
  cbn [Py.bind]. eexists; split; [reflexivity|].
  unfold entries, ref. cbn [gait arrays]. rewrite Hr. cbn [Py.bind].
  unfold read at 1. rewrite list_lookup_insert_eq by exact Hlt.
  cbn [default]. rewrite drop_all, app_nil_r. reflexivity.
Qed.

(** The key of line 370 is spelt ['Param:swing time']: where the table has
    no such key, the timing parameters of a group never complete. *)
Lemma timing_group_fails (dt : float) (st : state) (mask : list bool) :
  gait st !! "Param:swing time"%string = None ->
  forall st', timing_group dt st mask <> Ok st'.
Proof.
  intros Hk st'. unfold timing_group.
  destruct (assign_stride_time dt st mask) as [st1| |] eqn:E1;
    cbn [Py.bind]; try discriminate.
  assert (Hg : gait st1 = gait st).
  { revert E1. unfold assign_stride_time.
    do 2 on_ok. intros E. apply (assign_masked_keeps_arrays _ _ _ _ _ _ E). }
  assert (E2 : forall st2, assign_swing_time dt st1 mask <> Ok st2).
  { intros st2. unfold assign_swing_time.
    do 4 on_ok. unfold assign_masked, ref. rewrite Hg, Hk. discriminate. }
  destruct (assign_swing_time dt st1 mask) as [st2| |];
    cbn [Py.bind]; try discriminate.
  exfalso. exact (E2 st2 eq_refl).
Qed.

(** A table as the stride builder is meant to leave it for one (day, bout)
    group of three strides (IC = 10, 35, 62), were there ever one: the
    assignment of lines 368-369 leaves the stride time column of the table
    all [nan], the value (62 - 10) * dt being stored into the copy that
    the boolean index made; the timing parameters of the group then end in
    the [KeyError] of line 370; the direct assignment of line 383 does
    reach the stance time column. *)
Example masked_writes_on_a_group :
  (st <- alloc_params (to_arrays one_bout_table) ;;
   group_mask st 1 1) = Ok [true; true; true]
  /\ (st <- alloc_params (to_arrays one_bout_table) ;;
      st' <- assign_stride_time Strides.ex_dt st [true; true; true] ;;
      col <- entries st' "PARAM:stride time" ;;
      Ok (col, last (arrays st')))
     = Ok ([Float nan; Float nan; Float nan],
           Some [Float 1.04; Float nan; Float nan])
  /\ (st <- alloc_params (to_arrays one_bout_table) ;;
      timing Strides.ex_dt st) = Raise KeyError
  /\ (st <- alloc_params (to_arrays one_bout_table) ;;
      st' <- assign_stance_time Strides.ex_dt st ;;
      entries st' "PARAM:stance time")
     = Ok [Float 0.62; Float 0.66000000000000003; Float 0.66000000000000003].
Proof.
  split; [|split; [|split]]; vm_compute; reflexivity.
Qed.

End MetricsFacts.

(** ** [_predict] as a whole *)

Module PredictFacts.
Import Table Predict.



End PredictFacts.

(** * The claims *)

Import Segmenter SegmenterFacts.

(** C1. On the worked example of the specification (the label array of the
    test fixture, [dt = 1/50], 0.5 s and 1.5 s thresholds) the segmenter
    finds the edges 0, 149, ... and 89, 159, ..., and then ends in the
    [IndexError] of line 443 when it looks for a start after the last one;
    it does not return the bout list [(0,90), (150,240), (400,780)]. *)
Theorem C1_worked_example_raises :
  bout_edges bgait
  = Ok ([0; 149; 164; 199; 224; 399; 769; 989],
        [89; 159; 179; 209; 239; 759; 779; 999])
  /\ _get_gait_bouts case1_gait case1_dt bgait = Raise IndexError
  /\ _get_gait_bouts case1_gait case1_dt bgait <> Ok case1_bouts.
Proof.
  assert (E : bout_edges bgait
              = Ok ([0; 149; 164; 199; 224; 399; 769; 989],
                    [89; 159; 179; 209; 239; 759; 779; 999]))
    by (vm_compute; reflexivity).
  split; [exact E|].
  rewrite get_gait_bouts_outcome, E. split; [reflexivity|discriminate].
Qed.

(** C2. On every non-empty classification array that is true throughout,
    the implicit-start and implicit-stop rules give the single start 0 and
    the single stop N-1, but the segmenter does not return: the merge test
    of line 443 reads [starts[1]] and raises [IndexError]. *)
Theorem C2_all_true_raises (self : Gait) (dt : Q) (n : nat) :
  bout_edges (replicate (S n) true) = Ok ([0], [Z.of_nat n])
  /\ _get_gait_bouts self dt (replicate (S n) true) = Raise IndexError.
Proof.
  assert (E : bout_edges (replicate (S n) true) = Ok ([0], [Z.of_nat n])).
  { change (replicate (S n) true) with (true :: replicate n true).
    rewrite bout_edges_cons.
    change (true :: replicate n true) with (replicate (S n) true).
    rewrite last_constant. unfold Np.where_.
    rewrite !edges_constant by discriminate.
    unfold Np.insert0, Np.append, len. rewrite length_replicate.
    cbn [app]. do 3 f_equal. lia. }
  split; [exact E|]. rewrite get_gait_bouts_outcome, E. reflexivity.
Qed.

(** C10. For every non-empty boolean classification array, the bout starts
    and the bout stops, after the implicit boundaries at 0 and N-1 have
    been added, are equally many, and the segmenter never raises the
    starts/stops-mismatch [ValueError]. *)
Theorem C10_starts_stops_balanced (self : Gait) (dt : Q) (c : list bool) :
  c <> [] ->
  (exists starts stops : list Z,
      bout_edges c = Ok (starts, stops) /\ len starts = len stops)
  /\ _get_gait_bouts self dt c <> Raise ValueError.
Proof.
  intros Hc. destruct c as [|a c]; [congruence|].
  pose proof (bout_edges_cons a c) as E.
  split.
  - eexists _, _. split; [exact E|].
    apply (bout_edges_balanced (a :: c)). exact E.
  - rewrite get_gait_bouts_outcome, E.
    destruct (if a then _ else _); discriminate.
Qed.

Lemma C10_starts_stops_balanced_witness :
  [true; false; true; true] <> []
  /\ (exists starts stops : list Z,
         bout_edges [true; false; true; true] = Ok (starts, stops)
         /\ len starts = len stops)
  /\ _get_gait_bouts Gait_default (1 # 50) [true; false; true; true]
     <> Raise ValueError.
Proof.
  split; [discriminate|].
  apply (C10_starts_stops_balanced Gait_default (1 # 50) [true; false; true; true]).
  discriminate.
Defined.

Import Height.

(** C3. With [height = None] the height handling of [_predict] emits no
    warning in any configuration: the test of line 161 is always false.
    With the default [leg_length = False] it raises [TypeError] at line 166
    ([height_factor * None]); with [leg_length = True] it goes on
    silently. *)
Theorem C3_height_none_raises :
  height_stage Gait_default PyNone = Raise TypeError
  /\ forall self : Gait,
       height_stage self PyNone
       = if leg_length self then Ok ([], Some PyNone) else Raise TypeError.
Proof.
  split; [reflexivity|]. intros self. unfold height_stage.
  cbn [is_none]. destruct (leg_length self); reflexivity.
Qed.

Import Scales ScalesFacts.


Import Table Strides StridesFacts.




Import Predict PredictFacts.




Import Metrics MetricsFacts.


